(** * Delta firmware update sample: the flash callbacks and the apply sequence

    A shallow embedding of [app/src/main.c].  The file implements the four
    callbacks handed to the delta library ([delta_mem_read], [delta_mem_write],
    [delta_mem_erase], [delta_mem_seek]) and the start-up sequence
    ([delta_apply_init], [delta_apply_algo], [main]).

    Everything the file calls outside itself (the Zephyr flash map, the
    buffered image writer, the delta backend, MCUboot, the kernel) is an
    external call: the program asks, the environment answers.  A function is
    therefore a finite tree of external calls, and running it against an
    environment yields the returned value together with the ordered list of
    the calls made and the answers received.  [main] is a process: it
    returns a status, or it ends in [sys_reboot], a call from which control
    does not come back. *)

From Stdlib Require Import ZArith List Bool Lia.
From Stdlib Require Import Init.Byte.
Import ListNotations.
Local Open Scope Z_scope.

(** ** Constants of the platform headers *)

(** [errno.h] *)
Definition ENODEV : Z := 19.
Definition EINVAL : Z := 22.

(** [zephyr/dfu/mcuboot.h] *)
Definition BOOT_UPGRADE_TEST : Z := 0.
Definition BOOT_UPGRADE_PERMANENT : Z := 1.

(** [zephyr/sys/reboot.h] *)
Definition SYS_REBOOT_WARM : Z := 0.
Definition SYS_REBOOT_COLD : Z := 1.

(** ** Integer types *)

(** Conversion to [uint64_t]: reduction modulo 2^64. *)
Definition to_uint64 (z : Z) : Z := z mod 2 ^ 64.

(** A [size_t] is 32 or 64 bits wide on the supported targets, so each of its
    values lies in this range. *)
Definition size_t_range (z : Z) : Prop := 0 <= z < 2 ^ 64.

(** Conversion to [off_t], a signed integer of [bits] bits ([int] or [long],
    by target): the value is reduced modulo 2^bits into the signed range, as
    the compilers of the supported targets do. *)
Definition to_off_t (bits : Z) (z : Z) : Z :=
  (z + 2 ^ (bits - 1)) mod 2 ^ bits - 2 ^ (bits - 1).

(** The offsets that an [off_t] of [bits] bits holds as they are. *)
Definition off_t_range (bits : Z) (z : Z) : Prop := 0 <= z < 2 ^ (bits - 1).

Section Delta.

(** [const struct flash_area *] and [struct flash_img_context] are opaque to
    the application. *)
Context {flash_area_ptr flash_img_context : Type}.

(** The identifier of the partition holding the running firmware; the macro
    comes from [zephyr/delta/delta.h]. *)
Variable SLOT_0 : Z.

(** The width of [off_t] on the target, in bits. *)
Variable OFF_T_BITS : Z.

(** ** The memory structure, as [main.c] uses its fields *)

Record flash_mem : Type := mk_flash_mem {
  flash_area : flash_area_ptr;
  img_ctx : flash_img_context;
  slot : Z
}.

Record offset_t : Type := mk_offset {
  source : Z;   (* uint64_t *)
  patch : Z     (* uint64_t *)
}.

Record delta_memory_struct_t : Type := mk_memory {
  flash : flash_mem;
  offset : offset_t
}.

Definition set_flash_area (m : delta_memory_struct_t) (fa : flash_area_ptr)
  : delta_memory_struct_t :=
  mk_memory (mk_flash_mem fa (img_ctx (flash m)) (slot (flash m))) (offset m).

Definition set_img_ctx (m : delta_memory_struct_t) (ctx : flash_img_context)
  : delta_memory_struct_t :=
  mk_memory (mk_flash_mem (flash_area (flash m)) ctx (slot (flash m))) (offset m).

Definition set_offset (m : delta_memory_struct_t) (s p : Z)
  : delta_memory_struct_t :=
  mk_memory (flash m) (mk_offset s p).

(** ** The delta API structure

    [struct delta_api_t] holds the memory structure, the four callbacks and
    the backend; [main.c] reads its [memory] and [seek] members and calls
    [backend.patch].  A callback member is a function pointer: the address of
    the callback that [main.c] defines for it, or another address. *)

Inductive delta_read_t : Type :=
| addr_delta_mem_read
| foreign_read (addr : Z).

Inductive delta_write_t : Type :=
| addr_delta_mem_write
| foreign_write (addr : Z).

Inductive delta_seek_t : Type :=
| addr_delta_mem_seek
| foreign_seek (addr : Z).

Inductive delta_erase_t : Type :=
| addr_delta_mem_erase
| foreign_erase (addr : Z).

Record delta_api_t : Type := mk_api {
  memory : delta_memory_struct_t;
  read : delta_read_t;
  write : delta_write_t;
  seek : delta_seek_t;
  erase : delta_erase_t;
  backend : Z   (* the backend member: the address of its patch entry *)
}.

Definition set_memory (a : delta_api_t) (m : delta_memory_struct_t)
  : delta_api_t :=
  mk_api m (read a) (write a) (seek a) (erase a) (backend a).

(** ** External calls

    Each constructor is one function called by [main.c] and defined
    elsewhere, with the arguments of the call site.  An object passed by
    pointer for the callee to fill in ([&arg_p->flash.flash_area], [buf_p],
    [&img_ctx], the memory structure seen by the backend) is passed with its
    current value and comes back in the answer.  Arguments are recorded as
    the callee receives them, after conversion to its parameter types.
    [call_foreign_seek] is a call through a [seek] member that does not hold
    the address of [delta_mem_seek].  Logging is left out: it takes part in
    no decision. *)

Inductive call : Type :=
| flash_area_open (id : Z) (fa : flash_area_ptr)
| flash_area_read (fa : flash_area_ptr) (off : Z) (dst : list byte) (len : Z)
| flash_area_erase (fa : flash_area_ptr) (off : Z) (len : Z)
| flash_area_close (fa : flash_area_ptr)
| flash_img_init (ctx : flash_img_context)
| flash_img_buffered_write
    (ctx : flash_img_context) (data : list byte) (len : Z) (flush : bool)
| delta_register_callbacks
| call_foreign_seek (addr : Z) (mem : delta_memory_struct_t)
                    (source_offset : Z) (patch_offset : Z)
| backend_patch (self_p : delta_api_t)
| boot_request_upgrade (permanent : Z)
| k_sleep (seconds : Z).

(** The calls from which control does not come back. *)
Inductive final_call : Type :=
| sys_reboot (type : Z).

Definition resp (c : call) : Type :=
  match c with
  | flash_area_open _ _ => (Z * flash_area_ptr)%type
  | flash_area_read _ _ _ _ => (Z * list byte)%type
  | flash_area_erase _ _ _ => Z
  | flash_area_close _ => unit
  | flash_img_init _ => (Z * flash_img_context)%type
  | flash_img_buffered_write _ _ _ _ => (Z * flash_img_context)%type
  | delta_register_callbacks => Z
  | call_foreign_seek _ _ _ _ => (Z * delta_memory_struct_t)%type
  | backend_patch _ => (Z * delta_api_t)%type
  | boot_request_upgrade _ => Z
  | k_sleep _ => Z
  end.

(** ** Functions *)

Inductive prog (A : Type) : Type :=
| Ret (a : A)
| Do (c : call) (k : resp c -> prog A).

Arguments Ret {A} a.
Arguments Do {A} c k.

Fixpoint bind {A B : Type} (p : prog A) (f : A -> prog B) : prog B :=
  match p with
  | Ret a => f a
  | Do c k => Do c (fun r => bind (k r) f)
  end.

Definition ext (c : call) : prog (resp c) := Do c Ret.

Notation "x <- p ;; q" := (bind p (fun x => q))
  (at level 61, p at next level, right associativity).
Notation "' pat <- p ;; q" := (bind p (fun x => let pat := x in q))
  (at level 61, pat pattern, p at next level, right associativity).

(** ** Processes

    A process returns a status, makes a call and goes on with the answer, or
    ends in a call that does not return. *)

Inductive proc : Type :=
| Exit (ret : Z)
| Act (c : call) (k : resp c -> proc)
| Final (c : final_call).

(** A function, then the process that its result starts. *)
Fixpoint and_then {A : Type} (p : prog A) (f : A -> proc) : proc :=
  match p with
  | Ret a => f a
  | Do c k => Act c (fun r => and_then (k r) f)
  end.

Notation "x <- p ;;; q" := (and_then p (fun x => q))
  (at level 61, p at next level, right associativity).
Notation "' pat <- p ;;; q" := (and_then p (fun x => let pat := x in q))
  (at level 61, pat pattern, p at next level, right associativity).

(** An observed call: one that was answered, with its answer, or one that
    did not return. *)
Inductive event : Type :=
| Ev (c : call) (r : resp c)
| EvFinal (c : final_call).

(** The environment: it answers each call and moves to its next state. *)
Definition handler (W : Type) : Type := forall c : call, W -> resp c * W.

Fixpoint run {W A : Type} (h : handler W) (p : prog A) (w : W)
  : A * W * list event :=
  match p with
  | Ret a => (a, w, [])
  | Do c k =>
      let (r, w1) := h c w in
      let '(a, w2, tr) := run h (k r) w1 in
      (a, w2, Ev c r :: tr)
  end.

Definition result {W A : Type} (h : handler W) (p : prog A) (w : W) : A :=
  fst (fst (run h p w)).

Definition trace {W A : Type} (h : handler W) (p : prog A) (w : W)
  : list event :=
  snd (run h p w).

(** Running a process: the status it returned, if it returned. *)
Fixpoint run_process {W : Type} (h : handler W) (p : proc) (w : W)
  : option Z * W * list event :=
  match p with
  | Exit ret => (Some ret, w, [])
  | Act c k =>
      let (r, w1) := h c w in
      let '(a, w2, tr) := run_process h (k r) w1 in
      (a, w2, Ev c r :: tr)
  | Final c => (None, w, [EvFinal c])
  end.

Definition process_result {W : Type} (h : handler W) (p : proc) (w : W)
  : option Z :=
  fst (fst (run_process h p w)).

Definition process_trace {W : Type} (h : handler W) (p : proc) (w : W)
  : list event :=
  snd (run_process h p w).

(** ** The callbacks *)

(** [delta_mem_read], lines 29-53.  Returns the structure, the buffer and the
    status.  [flash_area_read] takes its offset as an [off_t]. *)
Definition delta_mem_read
    (arg_p : delta_memory_struct_t) (buf_p : list byte) (size : Z)
  : prog (delta_memory_struct_t * list byte * Z) :=
  let offset :=
    if slot (flash arg_p) =? SLOT_0
    then source (offset arg_p)
    else patch (offset arg_p) in
  '(ret, fa) <- ext (flash_area_open (slot (flash arg_p))
                                     (flash_area (flash arg_p))) ;;
  let arg_p := set_flash_area arg_p fa in
  if negb (ret =? 0) then Ret (arg_p, buf_p, - ENODEV) else
  '(ret, buf_p) <- ext (flash_area_read (flash_area (flash arg_p))
                                        (to_off_t OFF_T_BITS offset)
                                        buf_p size) ;;
  if negb (ret =? 0) then Ret (arg_p, buf_p, - EINVAL) else
  _ <- ext (flash_area_close (flash_area (flash arg_p))) ;;
  Ret (arg_p, buf_p, ret).

(** [delta_mem_write], lines 64-74. *)
Definition delta_mem_write
    (arg_p : delta_memory_struct_t) (buf_p : list byte) (size : Z)
    (flush : bool)
  : prog (delta_memory_struct_t * Z) :=
  '(ret, ctx) <- ext (flash_img_buffered_write (img_ctx (flash arg_p))
                                               buf_p size flush) ;;
  let arg_p := set_img_ctx arg_p ctx in
  if negb (ret =? 0) then Ret (arg_p, - EINVAL) else
  Ret (arg_p, ret).

(** [delta_mem_erase], lines 84-101.  [flash_area_erase] takes its offset as
    an [off_t]. *)
Definition delta_mem_erase
    (arg_p : delta_memory_struct_t) (offset : Z) (size : Z)
  : prog (delta_memory_struct_t * Z) :=
  '(ret, fa) <- ext (flash_area_open (slot (flash arg_p))
                                     (flash_area (flash arg_p))) ;;
  let arg_p := set_flash_area arg_p fa in
  if negb (ret =? 0) then Ret (arg_p, - ENODEV) else
  ret <- ext (flash_area_erase (flash_area (flash arg_p))
                               (to_off_t OFF_T_BITS offset) size) ;;
  if negb (ret =? 0) then Ret (arg_p, - EINVAL) else
  _ <- ext (flash_area_close (flash_area (flash arg_p))) ;;
  Ret (arg_p, ret).

(** [delta_mem_seek], lines 111-116.  The two [size_t] arguments are stored
    into [uint64_t] fields. *)
Definition delta_mem_seek
    (arg_p : delta_memory_struct_t) (source_offset : Z) (patch_offset : Z)
  : prog (delta_memory_struct_t * Z) :=
  let arg_p :=
    set_offset arg_p (to_uint64 source_offset) (patch (offset arg_p)) in
  let arg_p :=
    set_offset arg_p (source (offset arg_p)) (to_uint64 patch_offset) in
  Ret (arg_p, 0).

(** ** Calls through the API structure *)

(** A call through the [seek] member. *)
Definition call_seek (f : delta_seek_t)
    (arg_p : delta_memory_struct_t) (source_offset : Z) (patch_offset : Z)
  : prog (delta_memory_struct_t * Z) :=
  match f with
  | addr_delta_mem_seek => delta_mem_seek arg_p source_offset patch_offset
  | foreign_seek addr =>
      '(ret, mem) <- ext (call_foreign_seek addr arg_p
                                            source_offset patch_offset) ;;
      Ret (mem, ret)
  end.

(** Modelled from the spec: [delta_apply_patch_init] belongs to the delta
    library, whose source is not part of the application.  The spec has it
    "register the four primitives (read, write, seek, erase) with the backend
    decoder" and fail "if registration is rejected": the library is asked for
    the status, and on success the four function references are bound to the
    API structure. *)
Definition delta_apply_patch_init
    (self_p : delta_api_t) (read : delta_read_t) (write : delta_write_t)
    (seek : delta_seek_t) (erase : delta_erase_t)
  : prog (delta_api_t * Z) :=
  ret <- ext delta_register_callbacks ;;
  if negb (ret =? 0) then Ret (self_p, ret) else
  Ret (mk_api (memory self_p) read write seek erase (backend self_p), ret).

(** ** The apply sequence *)

(** [delta_apply_algo], lines 125-143.  The backend is handed the API
    structure; what it leaves of it comes back with its status. *)
Definition delta_apply_algo (self_p : delta_api_t) : prog (delta_api_t * Z) :=
  '(ret, self_p) <- ext (backend_patch self_p) ;;
  if negb (ret =? 0) then Ret (self_p, ret) else
  ret <- ext (boot_request_upgrade BOOT_UPGRADE_PERMANENT) ;;
  if negb (ret =? 0) then Ret (self_p, ret) else
  Ret (self_p, ret).

(** [delta_apply_init], lines 151-181. *)
Definition delta_apply_init (delta_apply : delta_api_t)
  : prog (delta_api_t * Z) :=
  '(ret, ctx) <- ext (flash_img_init (img_ctx (flash (memory delta_apply)))) ;;
  let delta_apply :=
    set_memory delta_apply (set_img_ctx (memory delta_apply) ctx) in
  if negb (ret =? 0) then Ret (delta_apply, ret) else
  '(delta_apply, ret) <- delta_apply_patch_init delta_apply
                           addr_delta_mem_read
                           addr_delta_mem_write
                           addr_delta_mem_seek
                           addr_delta_mem_erase ;;
  if negb (ret =? 0) then Ret (delta_apply, ret) else
  '(mem, ret) <- call_seek (seek delta_apply) (memory delta_apply) 0 0 ;;
  let delta_apply := set_memory delta_apply mem in
  if negb (ret =? 0) then Ret (delta_apply, ret) else
  Ret (delta_apply, ret).

(** Whether the build defines [CONFIG_APP_LOG_LEVEL_DBG]. *)
Variable CONFIG_APP_LOG_LEVEL_DBG : bool.

(** [main], lines 183-212.  The argument is the content of the local
    [delta_apply] at its declaration.  [sys_reboot] does not return, so the
    [return ret] of line 211 is never reached. *)
Definition main (delta_apply : delta_api_t) : proc :=
  '(delta_apply, ret) <- delta_apply_init delta_apply ;;;
  if negb (ret =? 0) then Exit ret else
  '(delta_apply, ret) <- delta_apply_algo delta_apply ;;;
  if negb (ret =? 0) then Exit ret else
  _ <- (if CONFIG_APP_LOG_LEVEL_DBG then ext (k_sleep 3) else Ret 0) ;;;
  Final (sys_reboot SYS_REBOOT_COLD).

(** ** Reading a trace *)

(** [flash_area_open]: the identifier asked for and the status. *)
Definition opened (e : event) : option (Z * Z) :=
  match e with
  | Ev c r =>
      match c return resp c -> option (Z * Z) with
      | flash_area_open id _ => fun r => Some (id, fst r)
      | _ => fun _ => None
      end r
  | EvFinal _ => None
  end.

(** [flash_area_read]: the offset, the length and the status. *)
Definition read_at (e : event) : option (Z * Z * Z) :=
  match e with
  | Ev c r =>
      match c return resp c -> option (Z * Z * Z) with
      | flash_area_read _ off _ len => fun r => Some (off, len, fst r)
      | _ => fun _ => None
      end r
  | EvFinal _ => None
  end.

(** [flash_area_erase]: the handle, the offset, the length and the status. *)
Definition erased (e : event) : option (flash_area_ptr * Z * Z * Z) :=
  match e with
  | Ev c r =>
      match c return resp c -> option (flash_area_ptr * Z * Z * Z) with
      | flash_area_erase fa off len => fun r => Some (fa, off, len, r)
      | _ => fun _ => None
      end r
  | EvFinal _ => None
  end.

(** [flash_area_close]: the handle. *)
Definition closed (e : event) : option flash_area_ptr :=
  match e with
  | Ev (flash_area_close fa) _ => Some fa
  | _ => None
  end.

(** The registration of the callbacks: the status. *)
Definition registered (e : event) : option Z :=
  match e with
  | Ev c r =>
      match c return resp c -> option Z with
      | delta_register_callbacks => fun r => Some r
      | _ => fun _ => None
      end r
  | EvFinal _ => None
  end.

(** [backend.patch]: the status. *)
Definition patched (e : event) : option Z :=
  match e with
  | Ev c r =>
      match c return resp c -> option Z with
      | backend_patch _ => fun r => Some (fst r)
      | _ => fun _ => None
      end r
  | EvFinal _ => None
  end.

(** [boot_request_upgrade]: the mode and the status. *)
Definition upgrade_requested (e : event) : option (Z * Z) :=
  match e with
  | Ev c r =>
      match c return resp c -> option (Z * Z) with
      | boot_request_upgrade mode => fun r => Some (mode, r)
      | _ => fun _ => None
      end r
  | EvFinal _ => None
  end.

(** [sys_reboot]: the type of reboot. *)
Definition rebooted (e : event) : option Z :=
  match e with
  | EvFinal (sys_reboot type) => Some type
  | _ => None
  end.

(** The observations of one kind, in the order of the trace. *)
Fixpoint collect {B : Type} (f : event -> option B) (tr : list event)
  : list B :=
  match tr with
  | [] => []
  | e :: tr' =>
      match f e with
      | Some b => b :: collect f tr'
      | None => collect f tr'
      end
  end.

(** Handles opened with success and handles closed. *)
Definition open_count (tr : list event) : nat :=
  length (filter (fun x => snd x =? 0) (collect opened tr)).

Definition close_count (tr : list event) : nat :=
  length (collect closed tr).

Definition open_failed (tr : list event) : bool :=
  existsb (fun x => negb (snd x =? 0)) (collect opened tr).

Definition read_failed (tr : list event) : bool :=
  existsb (fun x => negb (snd x =? 0)) (collect read_at tr).

Definition erase_failed (tr : list event) : bool :=
  existsb (fun x => negb (snd x =? 0)) (collect erased tr).

(** ** A scripted environment

    It answers every call with the status scripted for that function and
    leaves every object passed by pointer as it was. *)

Record script : Type := mk_script {
  on_open : Z;
  on_read : Z;
  on_erase : Z;
  on_img_init : Z;
  on_write : Z;
  on_register : Z;
  on_patch : Z;
  on_upgrade : Z
}.

Definition scripted (s : script) : handler unit :=
  fun c w =>
    match c return resp c * unit with
    | flash_area_open _ fa => ((on_open s, fa), w)
    | flash_area_read _ _ dst _ => ((on_read s, dst), w)
    | flash_area_erase _ _ _ => (on_erase s, w)
    | flash_area_close _ => (tt, w)
    | flash_img_init ctx => ((on_img_init s, ctx), w)
    | flash_img_buffered_write ctx _ _ _ => ((on_write s, ctx), w)
    | delta_register_callbacks => (on_register s, w)
    | call_foreign_seek _ mem _ _ => ((0, mem), w)
    | backend_patch self_p => ((on_patch s, self_p), w)
    | boot_request_upgrade _ => (on_upgrade s, w)
    | k_sleep _ => (0, w)
    end.

(** ** Further readings of a trace *)

(** [flash_area_read]: the handle read through. *)
Definition read_through (e : event) : option flash_area_ptr :=
  match e with
  | Ev (flash_area_read fa _ _ _) _ => Some fa
  | _ => None
  end.

(** [flash_img_init]: the status. *)
Definition writer_initialised (e : event) : option Z :=
  match e with
  | Ev c r =>
      match c return resp c -> option Z with
      | flash_img_init _ => fun r => Some (fst r)
      | _ => fun _ => None
      end r
  | EvFinal _ => None
  end.

(** [flash_img_buffered_write]: the status. *)
Definition written (e : event) : option Z :=
  match e with
  | Ev c r =>
      match c return resp c -> option Z with
      | flash_img_buffered_write _ _ _ _ => fun r => Some (fst r)
      | _ => fun _ => None
      end r
  | EvFinal _ => None
  end.

(** [backend.patch]: the memory structure of the API structure handed to
    the backend. *)
Definition patched_with (e : event) : option delta_memory_struct_t :=
  match e with
  | Ev (backend_patch self_p) _ => Some (memory self_p)
  | _ => None
  end.

(** [backend.patch]: the API structure handed to the backend. *)
Definition patched_api (e : event) : option delta_api_t :=
  match e with
  | Ev (backend_patch self_p) _ => Some self_p
  | _ => None
  end.

(** The external functions by name. *)
Inductive fn : Type :=
| fn_flash_area_open
| fn_flash_area_read
| fn_flash_area_erase
| fn_flash_area_close
| fn_flash_img_init
| fn_flash_img_buffered_write
| fn_delta_register_callbacks
| fn_call_foreign_seek
| fn_backend_patch
| fn_boot_request_upgrade
| fn_k_sleep
| fn_sys_reboot.

Definition fn_of (e : event) : fn :=
  match e with
  | Ev (flash_area_open _ _) _ => fn_flash_area_open
  | Ev (flash_area_read _ _ _ _) _ => fn_flash_area_read
  | Ev (flash_area_erase _ _ _) _ => fn_flash_area_erase
  | Ev (flash_area_close _) _ => fn_flash_area_close
  | Ev (flash_img_init _) _ => fn_flash_img_init
  | Ev (flash_img_buffered_write _ _ _ _) _ => fn_flash_img_buffered_write
  | Ev delta_register_callbacks _ => fn_delta_register_callbacks
  | Ev (call_foreign_seek _ _ _ _) _ => fn_call_foreign_seek
  | Ev (backend_patch _) _ => fn_backend_patch
  | Ev (boot_request_upgrade _) _ => fn_boot_request_upgrade
  | Ev (k_sleep _) _ => fn_k_sleep
  | EvFinal (sys_reboot _) => fn_sys_reboot
  end.

(** The external functions of a complete run of [main], in the order of the
    source text. *)
Definition main_calls : list fn :=
  [fn_flash_img_init; fn_delta_register_callbacks; fn_backend_patch;
   fn_boot_request_upgrade]
  ++ (if CONFIG_APP_LOG_LEVEL_DBG then [fn_k_sleep] else [])
  ++ [fn_sys_reboot].

(** The reading of "erase always works on the destination region": whatever
    the memory structure holds, every region that the erase primitive opens
    is the one identified by [DESTINATION]. *)
Definition erase_opens_only (DESTINATION : Z) : Prop :=
  forall (W : Type) (h : handler W) (w : W)
         (m : delta_memory_struct_t) (off size : Z) (x : Z * Z),
    In x (collect opened (trace h (delta_mem_erase m off size) w)) ->
    fst x = DESTINATION.

End Delta.

Arguments Ret {flash_area_ptr flash_img_context A} a.
Arguments Do {flash_area_ptr flash_img_context A} c k.
Arguments Exit {flash_area_ptr flash_img_context} ret.
Arguments Act {flash_area_ptr flash_img_context} c k.
Arguments Final {flash_area_ptr flash_img_context} c.

(** ** Test benches

    Handles are numbers, the writer context carries nothing. *)

(** [errno.h] *)
Definition EIO : Z := 5.

Definition all_ok : script := mk_script 0 0 0 0 0 0 0 0.
Definition read_fault : script := mk_script 0 (- EIO) 0 0 0 0 0 0.
Definition erase_fault : script := mk_script 0 0 (- EIO) 0 0 0 0 0.
Definition patch_fault : script := mk_script 0 0 0 0 0 0 (- EIO) 0.
Definition open_fault : script := mk_script (- EIO) 0 0 0 0 0 0 0.
Definition write_fault : script := mk_script 0 0 0 0 (- EIO) 0 0 0.
Definition img_init_fault : script := mk_script 0 0 0 (- EIO) 0 0 0 0.
Definition register_fault : script := mk_script 0 0 0 0 0 (- EIO) 0 0.
Definition upgrade_fault : script := mk_script 0 0 0 0 0 0 0 (- EIO).

(** A memory structure with the selector on partition [id] and the cursors
    at [s] and [p]. *)
Definition bench_memory (id s p : Z) : @delta_memory_struct_t Z unit :=
  mk_memory (mk_flash_mem 0 tt id) (mk_offset s p).

(** The local [delta_apply] of [main] before initialisation: addresses of
    no callback stand for the indeterminate pointers. *)
Definition bench_api : @delta_api_t Z unit :=
  mk_api (bench_memory 7 5 9)
         (foreign_read 0) (foreign_write 0) (foreign_seek 0) (foreign_erase 0)
         0.

(** * Properties *)

Section Properties.

Context {flash_area_ptr flash_img_context : Type}.
Variable SLOT_0 : Z.
Variable OFF_T_BITS : Z.
Variable CONFIG_APP_LOG_LEVEL_DBG : bool.

Local Abbreviation delta_memory_struct_t :=
  (@delta_memory_struct_t flash_area_ptr flash_img_context).
Local Abbreviation delta_api_t :=
  (@delta_api_t flash_area_ptr flash_img_context).
Local Abbreviation handler := (@handler flash_area_ptr flash_img_context).
Local Abbreviation delta_mem_read := (delta_mem_read SLOT_0 OFF_T_BITS).
Local Abbreviation delta_mem_erase := (delta_mem_erase OFF_T_BITS).
Local Abbreviation main := (main CONFIG_APP_LOG_LEVEL_DBG).
Local Abbreviation main_calls := (main_calls CONFIG_APP_LOG_LEVEL_DBG).


(** Ask the environment for its next answer and split on a status test. *)
Ltac ask h :=
  match goal with
  | |- context [h ?c ?w] =>
      let r := fresh "r" in
      let w' := fresh "w" in
      destruct (h c w) as [r w'] eqn:?; cbn in r; cbn
  end.

Ltac status :=
  match goal with
  | |- context [?z =? 0] =>
      is_var z;
      let H := fresh "Hz" in
      destruct (Z.eqb_spec z 0) as [->|H]; cbn;
      [| rewrite ?(proj2 (Z.eqb_neq _ _) H); cbn]
  end.

Ltac unpair :=
  repeat match goal with
         | r : (_ * _)%type |- _ => destruct r
         end; cbn.

(** ** The read primitive *)

Lemma run_delta_mem_read {W : Type} (h : handler W) (w : W)
    (m : delta_memory_struct_t) (buf : list byte) (size : Z) :
  let off :=
    to_off_t OFF_T_BITS
      (if slot (flash m) =? SLOT_0
       then source (offset m) else patch (offset m)) in
  let o := h (flash_area_open (slot (flash m)) (flash_area (flash m))) w in
  let fa := snd (fst o) in
  let m1 := set_flash_area m fa in
  let r := h (flash_area_read fa off buf size) (snd o) in
  let c := h (flash_area_close fa) (snd r) in
  run h (delta_mem_read m buf size) w =
  if negb (fst (fst o) =? 0) then
    ((m1, buf, - ENODEV), snd o,
     [Ev (flash_area_open (slot (flash m)) (flash_area (flash m))) (fst o)])
  else if negb (fst (fst r) =? 0) then
    ((m1, snd (fst r), - EINVAL), snd r,
     [Ev (flash_area_open (slot (flash m)) (flash_area (flash m))) (fst o);
      Ev (flash_area_read fa off buf size) (fst r)])
  else
    ((m1, snd (fst r), fst (fst r)), snd c,
     [Ev (flash_area_open (slot (flash m)) (flash_area (flash m))) (fst o);
      Ev (flash_area_read fa off buf size) (fst r);
      Ev (flash_area_close fa) (fst c)]).
Proof.
  unfold delta_mem_read; cbn.
  ask h. unpair. status.
  - ask h. unpair. status.
    + ask h. reflexivity.
    + reflexivity.
  - reflexivity.
Qed.

(** C7: the read primitive opens the region exactly once; it returns
    [-ENODEV] if and only if that open failed, [-EINVAL] if and only if the
    region opened and the flash read reported a nonzero status, and zero
    otherwise; the three codes are pairwise distinct. *)
Theorem delta_mem_read_status {W : Type} (h : handler W) (w : W)
    (m : delta_memory_struct_t) (buf : list byte) (size : Z) :
  let tr := trace h (delta_mem_read m buf size) w in
  let ret := snd (result h (delta_mem_read m buf size) w) in
  length (collect opened tr) = 1%nat /\
  (ret = - ENODEV <-> open_failed tr = true) /\
  (ret = - EINVAL <-> open_failed tr = false /\ read_failed tr = true) /\
  (ret = 0 <-> open_failed tr = false /\ read_failed tr = false) /\
  - ENODEV <> - EINVAL /\ - ENODEV <> 0 /\ - EINVAL <> 0.
Proof.
  unfold trace, result. rewrite run_delta_mem_read. cbv zeta.
  unfold open_failed, read_failed, ENODEV, EINVAL.
  destruct (h (flash_area_open _ _) w) as [[so fa] w1]; cbn.
  destruct (Z.eqb_spec so 0) as [->|Hso]; cbn.
  - destruct (h (flash_area_read _ _ _ _) w1) as [[sr data] w2]; cbn.
    destruct (Z.eqb_spec sr 0) as [->|Hsr]; cbn.
    + repeat split; intros; try lia; try discriminate;
        repeat match goal with H : _ /\ _ |- _ => destruct H end;
        discriminate.
    + rewrite (proj2 (Z.eqb_neq _ _) Hsr); cbn.
      repeat split; intros; try lia; try discriminate;
        repeat match goal with H : _ /\ _ |- _ => destruct H end;
        discriminate.
  - rewrite (proj2 (Z.eqb_neq _ _) Hso); cbn.
    repeat split; intros; try lia; try discriminate;
      repeat match goal with H : _ /\ _ |- _ => destruct H end;
      discriminate.
Qed.

(** C9: the read primitive leaves both cursor offsets as they were, on the
    three exit paths alike. *)
Theorem delta_mem_read_keeps_offsets {W : Type} (h : handler W) (w : W)
    (m : delta_memory_struct_t) (buf : list byte) (size : Z) :
  let m' := fst (fst (result h (delta_mem_read m buf size) w)) in
  source (offset m') = source (offset m) /\
  patch (offset m') = patch (offset m).
Proof.
  unfold result. rewrite run_delta_mem_read. cbv zeta.
  destruct (negb _); [| destruct (negb _)]; cbn; auto.
Qed.

(** ** The seek primitive *)

Lemma to_uint64_id (z : Z) : size_t_range z -> to_uint64 z = z.
Proof. unfold size_t_range, to_uint64. intros Hz. apply Z.mod_small, Hz. Qed.

Lemma run_delta_mem_seek {W : Type} (h : handler W) (w : W)
    (m : delta_memory_struct_t) (s p : Z) :
  size_t_range s -> size_t_range p ->
  run h (delta_mem_seek m s p) w = ((set_offset m s p, 0), w, []).
Proof.
  intros Hs Hp. unfold delta_mem_seek; cbn.
  rewrite (to_uint64_id s Hs), (to_uint64_id p Hp). reflexivity.
Qed.

(** C8: for every pair of offsets, the seek primitive stores the first in the
    source cursor and the second in the patch cursor, touches nothing else,
    makes no external call and returns zero. *)
Theorem delta_mem_seek_sets_both {W : Type} (h : handler W) (w : W)
    (m : delta_memory_struct_t) (s p : Z) :
  size_t_range s -> size_t_range p ->
  run h (delta_mem_seek m s p) w = ((set_offset m s p, 0), w, []) /\
  source (offset (set_offset m s p)) = s /\
  patch (offset (set_offset m s p)) = p /\
  flash (set_offset m s p) = flash m.
Proof.
  intros Hs Hp. rewrite (run_delta_mem_seek h w m s p Hs Hp).
  repeat split.
Qed.

Lemma read_offset_of_cursor {W : Type} (h : handler W) (w : W)
    (m : delta_memory_struct_t) (buf : list byte) (size : Z) :
  map (fun x => fst (fst x))
      (collect read_at (trace h (delta_mem_read m buf size) w)) =
  if open_failed (trace h (delta_mem_read m buf size) w) then []
  else [to_off_t OFF_T_BITS (if slot (flash m) =? SLOT_0
                  then source (offset m) else patch (offset m))].
Proof.
  unfold trace. rewrite run_delta_mem_read. cbv zeta.
  unfold open_failed.
  destruct (h (flash_area_open _ _) w) as [[so fa] w1]; cbn.
  destruct (Z.eqb_spec so 0) as [->|Hso]; cbn.
  - destruct (h (flash_area_read _ _ _ _) w1) as [[sr data] w2]; cbn.
    destruct (negb (sr =? 0)); reflexivity.
  - rewrite (proj2 (Z.eqb_neq _ _) Hso). reflexivity.
Qed.

Lemma to_off_t_id (z : Z) :
  off_t_range OFF_T_BITS z -> to_off_t OFF_T_BITS z = z.
Proof.
  unfold off_t_range, to_off_t. intros [H0 H1].
  assert (Hb : 0 <= OFF_T_BITS - 1).
  { destruct (Z_lt_le_dec (OFF_T_BITS - 1) 0) as [Hneg|]; [|assumption].
    rewrite (Z.pow_neg_r 2 _ Hneg) in H1. lia. }
  replace OFF_T_BITS with (Z.succ (OFF_T_BITS - 1)) at 2 by lia.
  rewrite Z.pow_succ_r by assumption.
  rewrite Z.mod_small by lia. lia.
Qed.

(** C5, as the code has it: after [seek(s, p)], a read with the selector on
    [SLOT_0] asks the flash for the source cursor [s] converted to [off_t],
    and a read with the selector elsewhere asks for the patch cursor [p]
    converted to [off_t]; neither depends on the other cursor.  The offset
    asked for is [s] (or [p]) itself when [off_t] holds it.  The read is
    issued exactly when the region opened. *)
Theorem delta_mem_seek_then_read {W : Type} (h : handler W) (w : W)
    (m : delta_memory_struct_t) (s p : Z) (buf : list byte) (size : Z) :
  size_t_range s -> size_t_range p ->
  let m' := fst (result h (delta_mem_seek m s p) w) in
  let tr := trace h (delta_mem_read m' buf size) w in
  (slot (flash m) = SLOT_0 ->
   map (fun x => fst (fst x)) (collect read_at tr) =
   (if open_failed tr then [] else [to_off_t OFF_T_BITS s]) /\
   (off_t_range OFF_T_BITS s ->
    map (fun x => fst (fst x)) (collect read_at tr) =
    if open_failed tr then [] else [s])) /\
  (slot (flash m) <> SLOT_0 ->
   map (fun x => fst (fst x)) (collect read_at tr) =
   (if open_failed tr then [] else [to_off_t OFF_T_BITS p]) /\
   (off_t_range OFF_T_BITS p ->
    map (fun x => fst (fst x)) (collect read_at tr) =
    if open_failed tr then [] else [p])).
Proof.
  intros Hs Hp m'.
  assert (Hm : m' = set_offset m s p).
  { unfold m', result.
    rewrite (run_delta_mem_seek h w m s p Hs Hp).
    reflexivity. }
  clearbody m'. subst m'. cbv zeta.
  rewrite read_offset_of_cursor. cbn [set_offset flash offset source patch].
  split; intros Hslot.
  - rewrite (proj2 (Z.eqb_eq _ _) Hslot).
    split; [reflexivity|]. intros Hoff.
    rewrite (to_off_t_id s Hoff). reflexivity.
  - rewrite (proj2 (Z.eqb_neq _ _) Hslot).
    split; [reflexivity|]. intros Hoff.
    rewrite (to_off_t_id p Hoff). reflexivity.
Qed.


(** ** The write primitive *)

(** C10: the write primitive makes one call, to the buffered writer; it
    opens and closes no flash area, and in the memory structure it changes
    the writer context only. *)
Theorem delta_mem_write_frame {W : Type} (h : handler W) (w : W)
    (m : delta_memory_struct_t) (buf : list byte) (size : Z) (flush : bool) :
  let tr := trace h (delta_mem_write m buf size flush) w in
  let m' := fst (result h (delta_mem_write m buf size flush) w) in
  (exists r, tr = [Ev (flash_img_buffered_write (img_ctx (flash m))
                                                buf size flush) r] /\
             m' = set_img_ctx m (snd r)) /\
  collect opened tr = [] /\
  collect closed tr = [] /\
  source (offset m') = source (offset m) /\
  patch (offset m') = patch (offset m) /\
  slot (flash m') = slot (flash m) /\
  flash_area (flash m') = flash_area (flash m).
Proof.
  unfold trace, result, delta_mem_write; cbn.
  ask h. unpair.
  destruct (negb (z =? 0)); cbn; repeat split; eauto.
Qed.

(** ** The erase primitive *)

Lemma run_delta_mem_erase {W : Type} (h : handler W) (w : W)
    (m : delta_memory_struct_t) (off : Z) (size : Z) :
  let o := h (flash_area_open (slot (flash m)) (flash_area (flash m))) w in
  let fa := snd (fst o) in
  let m1 := set_flash_area m fa in
  let r := h (flash_area_erase fa (to_off_t OFF_T_BITS off) size) (snd o) in
  let c := h (flash_area_close fa) (snd r) in
  run h (delta_mem_erase m off size) w =
  if negb (fst (fst o) =? 0) then
    ((m1, - ENODEV), snd o,
     [Ev (flash_area_open (slot (flash m)) (flash_area (flash m))) (fst o)])
  else if negb (fst r =? 0) then
    ((m1, - EINVAL), snd r,
     [Ev (flash_area_open (slot (flash m)) (flash_area (flash m))) (fst o);
      Ev (flash_area_erase fa (to_off_t OFF_T_BITS off) size) (fst r)])
  else
    ((m1, fst r), snd c,
     [Ev (flash_area_open (slot (flash m)) (flash_area (flash m))) (fst o);
      Ev (flash_area_erase fa (to_off_t OFF_T_BITS off) size) (fst r);
      Ev (flash_area_close fa) (fst c)]).
Proof.
  unfold delta_mem_erase; cbn.
  ask h. unpair. status.
  - ask h. status.
    + ask h. reflexivity.
    + reflexivity.
  - reflexivity.
Qed.

(** C2, as the code has it: the erase primitive opens the region named by
    the [slot] field of the memory structure at the time of the call, once,
    and erases through the handle that this open delivered, at the offset it
    was given converted to [off_t] and for the length it was given.  The read primitive selects its region with the same
    field and leaves the field as it was. *)
Theorem delta_mem_erase_opens_slot_field {W : Type} (h : handler W) (w : W)
    (m : delta_memory_struct_t) (off : Z) (size : Z) :
  let tr := trace h (delta_mem_erase m off size) w in
  let o := fst (h (flash_area_open (slot (flash m)) (flash_area (flash m))) w) in
  collect opened tr = [(slot (flash m), fst o)] /\
  map fst (collect erased tr) =
  (if fst o =? 0 then [(snd o, to_off_t OFF_T_BITS off, size)] else []) /\
  (forall buf n,
     let m' := fst (fst (result h (delta_mem_read m buf n) w)) in
     slot (flash m') = slot (flash m) /\
     collect opened (trace h (delta_mem_read m buf n) w) =
     [(slot (flash m), fst o)]).
Proof.
  unfold trace, result. rewrite run_delta_mem_erase. cbv zeta.
  split; [| split].
  - destruct (negb _); [| destruct (negb _)]; reflexivity.
  - destruct (fst (fst (h (flash_area_open _ _) w)) =? 0); cbn;
      [destruct (negb _)|]; reflexivity.
  - intros buf n. rewrite run_delta_mem_read. cbv zeta.
    destruct (negb _); [| destruct (negb _)]; cbn; auto.
Qed.

(** ** Open handles

    What the two primitives leave open: the number of successful opens
    exceeds the number of closes by one exactly when the region opened and
    the operation on it then failed. *)

(** X13: in every environment, the read primitive leaves as many handles
    closed as it opened with success, except when the region opened and the
    flash read then failed: one handle is then left open. *)
Lemma delta_mem_read_open_close {W : Type} (h : handler W) (w : W)
    (m : delta_memory_struct_t) (buf : list byte) (size : Z) :
  let tr := trace h (delta_mem_read m buf size) w in
  open_count tr =
  Nat.add (close_count tr)
          (if negb (open_failed tr) && read_failed tr then 1%nat else 0%nat).
Proof.
  unfold trace. rewrite run_delta_mem_read. cbv zeta.
  unfold open_count, close_count, open_failed, read_failed.
  destruct (h (flash_area_open _ _) w) as [[so fa] w1]; cbn.
  destruct (Z.eqb_spec so 0) as [->|Hso]; cbn.
  - destruct (h (flash_area_read _ _ _ _) w1) as [[sr data] w2]; cbn.
    destruct (Z.eqb_spec sr 0) as [->|Hsr]; cbn; [reflexivity|].
    rewrite (proj2 (Z.eqb_neq _ _) Hsr). reflexivity.
  - rewrite (proj2 (Z.eqb_neq _ _) Hso). reflexivity.
Qed.

(** X14: in every environment, the erase primitive leaves as many handles
    closed as it opened with success, except when the region opened and the
    flash erase then failed: one handle is then left open. *)
Lemma delta_mem_erase_open_close {W : Type} (h : handler W) (w : W)
    (m : delta_memory_struct_t) (off : Z) (size : Z) :
  let tr := trace h (delta_mem_erase m off size) w in
  open_count tr =
  Nat.add (close_count tr)
          (if negb (open_failed tr) && erase_failed tr then 1%nat else 0%nat).
Proof.
  unfold trace. rewrite run_delta_mem_erase. cbv zeta.
  unfold open_count, close_count, open_failed, erase_failed.
  destruct (h (flash_area_open _ _) w) as [[so fa] w1]; cbn.
  destruct (Z.eqb_spec so 0) as [->|Hso]; cbn.
  - destruct (h (flash_area_erase _ _ _) w1) as [sr w2]; cbn.
    destruct (Z.eqb_spec sr 0) as [->|Hsr]; cbn; [reflexivity|].
    rewrite (proj2 (Z.eqb_neq _ _) Hsr). reflexivity.
  - rewrite (proj2 (Z.eqb_neq _ _) Hso). reflexivity.
Qed.

(** ** The apply sequence *)

(** Run the sequence to each of its exits. *)
Ltac exits h :=
  repeat first
    [ progress unpair
    | status
    | ask h
    | match goal with
      | |- context [if ?b then _ else _] => is_var b; destruct b; cbn
      end ].

(** C6: initialisation calls the writer initialisation first, the
    registration second and the cursor reset last.  When the writer
    initialisation fails nothing else is called: the registration is not in
    the trace, and the structure differs from the initial one by the writer
    context only, so the cursors and the callbacks are as they were.  When
    the registration fails the cursors are as they were.  When both succeed
    the registered seek is [delta_mem_seek] and both cursors are zero. *)
Theorem delta_apply_init_order {W : Type} (h : handler W) (w : W)
    (api : delta_api_t) :
  let tr := trace h (delta_apply_init api) w in
  let api' := fst (result h (delta_apply_init api) w) in
  let ret := snd (result h (delta_apply_init api) w) in
  let ctx := img_ctx (flash (memory api)) in
  exists r1 : Z * flash_img_context,
    (fst r1 <> 0 /\
     tr = [Ev (flash_img_init ctx) r1] /\
     collect registered tr = [] /\
     ret = fst r1 /\
     api' = set_memory api (set_img_ctx (memory api) (snd r1))) \/
    (fst r1 = 0 /\
     exists r2 : Z,
       tr = [Ev (flash_img_init ctx) r1; Ev delta_register_callbacks r2] /\
       ((r2 <> 0 /\ ret = r2 /\
         offset (memory api') = offset (memory api)) \/
        (r2 = 0 /\ ret = 0 /\
         seek api' = addr_delta_mem_seek /\
         offset (memory api') = mk_offset 0 0 /\
         flash (memory api') = flash (set_img_ctx (memory api) (snd r1))))).
Proof.
  unfold trace, result, delta_apply_init, delta_apply_patch_init, call_seek;
    cbn.
  ask h. destruct r as [s1 c1]. cbn. exists (s1, c1). status.
  - right. split; [reflexivity|]. ask h. exists r. status.
    + split; [reflexivity|]. right. repeat split.
    + split; [reflexivity|]. left. repeat split. assumption.
  - left. repeat split. assumption.
Qed.

(** C3: in a run of [main] where the backend's patch returned zero,
    [boot_request_upgrade] is called exactly once, with
    [BOOT_UPGRADE_PERMANENT], the patch itself was called once, and the cold
    reboot is requested when that upgrade request returned zero and not
    otherwise. *)
Theorem main_requests_upgrade_once {W : Type} (h : handler W) (w : W)
    (api : delta_api_t) :
  let tr := process_trace h (main api) w in
  In 0 (collect patched tr) ->
  collect patched tr = [0] /\
  exists r,
    collect upgrade_requested tr = [(BOOT_UPGRADE_PERMANENT, r)] /\
    (r = 0 -> collect rebooted tr = [SYS_REBOOT_COLD]) /\
    (r <> 0 -> collect rebooted tr = []).
Proof.
  unfold process_trace, main, delta_apply_init, delta_apply_patch_init,
    delta_apply_algo, call_seek; cbn.
  exits h; intros Hin;
    repeat match goal with
           | H : _ \/ _ |- _ => destruct H
           | H : False |- _ => destruct H
           end;
    try congruence;
    (split; [reflexivity|]);
    eexists; (split; [reflexivity|]);
    split; intros; congruence.
Qed.

(** C4: in a run of [main] where the backend's patch returned a nonzero
    status, [boot_request_upgrade] is not called, no reboot is requested and
    [main] returns that status. *)
Theorem main_patch_failure {W : Type} (h : handler W) (w : W)
    (api : delta_api_t) (r : Z) :
  let tr := process_trace h (main api) w in
  r <> 0 ->
  In r (collect patched tr) ->
  collect upgrade_requested tr = [] /\
  collect rebooted tr = [] /\
  process_result h (main api) w = Some r.
Proof.
  unfold process_trace, process_result, main, delta_apply_init,
    delta_apply_patch_init, delta_apply_algo, call_seek; cbn.
  exits h; intros Hr Hin;
    repeat match goal with
           | H : _ \/ _ |- _ => destruct H
           | H : False |- _ => destruct H
           end;
    try congruence; subst; repeat split.
Qed.

(** * Further properties of the callbacks *)

(** X1: the write primitive returns zero exactly when the buffered writer
    returned zero, and [-EINVAL] for every nonzero status of the writer: the
    writer's own error code does not reach the caller. *)
Theorem delta_mem_write_status {W : Type} (h : handler W) (w : W)
    (m : delta_memory_struct_t) (buf : list byte) (size : Z) (flush : bool) :
  let tr := trace h (delta_mem_write m buf size flush) w in
  let ret := snd (result h (delta_mem_write m buf size flush) w) in
  exists st,
    collect written tr = [st] /\
    (ret = 0 <-> st = 0) /\
    (ret = - EINVAL <-> st <> 0).
Proof.
  unfold trace, result, delta_mem_write, EINVAL; cbn.
  ask h. destruct r as [st ctx]. cbn. exists st.
  destruct (Z.eqb_spec st 0) as [->|Hst]; cbn.
  - repeat split; intros; try reflexivity; try discriminate; congruence.
  - repeat split; intros; try reflexivity; try assumption; try lia.
Qed.

(** X2: the erase primitive opens the region exactly once; it returns
    [-ENODEV] if and only if that open failed, [-EINVAL] if and only if the
    region opened and the flash erase reported a nonzero status, and zero
    otherwise. *)
Theorem delta_mem_erase_status {W : Type} (h : handler W) (w : W)
    (m : delta_memory_struct_t) (off : Z) (size : Z) :
  let tr := trace h (delta_mem_erase m off size) w in
  let ret := snd (result h (delta_mem_erase m off size) w) in
  length (collect opened tr) = 1%nat /\
  (ret = - ENODEV <-> open_failed tr = true) /\
  (ret = - EINVAL <-> open_failed tr = false /\ erase_failed tr = true) /\
  (ret = 0 <-> open_failed tr = false /\ erase_failed tr = false).
Proof.
  unfold trace, result. rewrite run_delta_mem_erase. cbv zeta.
  unfold open_failed, erase_failed, ENODEV, EINVAL.
  destruct (h (flash_area_open _ _) w) as [[so fa] w1]; cbn.
  destruct (Z.eqb_spec so 0) as [->|Hso]; cbn.
  - destruct (h (flash_area_erase _ _ _) w1) as [sr w2]; cbn.
    destruct (Z.eqb_spec sr 0) as [->|Hsr]; cbn.
    + repeat split; intros; try lia; try discriminate;
        repeat match goal with H : _ /\ _ |- _ => destruct H end;
        discriminate.
    + rewrite (proj2 (Z.eqb_neq _ _) Hsr); cbn.
      repeat split; intros; try lia; try discriminate;
        repeat match goal with H : _ /\ _ |- _ => destruct H end;
        discriminate.
  - rewrite (proj2 (Z.eqb_neq _ _) Hso); cbn.
    repeat split; intros; try lia; try discriminate;
      repeat match goal with H : _ /\ _ |- _ => destruct H end;
      discriminate.
Qed.

(** X3: the erase primitive calls [flash_area_open] alone when the open
    fails, [flash_area_open] and [flash_area_erase] when the region opened
    and the erase failed, and [flash_area_open], [flash_area_erase],
    [flash_area_close] when both succeeded; it calls nothing else.  In the
    memory structure it replaces the handle by the one the open delivered;
    cursors, selector and writer context stay. *)
Theorem delta_mem_erase_frame {W : Type} (h : handler W) (w : W)
    (m : delta_memory_struct_t) (off : Z) (size : Z) :
  let tr := trace h (delta_mem_erase m off size) w in
  let m' := fst (result h (delta_mem_erase m off size) w) in
  let o := fst (h (flash_area_open (slot (flash m)) (flash_area (flash m))) w) in
  map fn_of tr =
  (if open_failed tr then [fn_flash_area_open]
   else if erase_failed tr then [fn_flash_area_open; fn_flash_area_erase]
   else [fn_flash_area_open; fn_flash_area_erase; fn_flash_area_close]) /\
  m' = set_flash_area m (snd o) /\
  offset m' = offset m /\
  slot (flash m') = slot (flash m) /\
  img_ctx (flash m') = img_ctx (flash m).
Proof.
  unfold trace, result. rewrite run_delta_mem_erase. cbv zeta.
  unfold open_failed, erase_failed.
  destruct (h (flash_area_open _ _) w) as [[so fa] w1]; cbn.
  destruct (Z.eqb_spec so 0) as [->|Hso]; cbn.
  - destruct (h (flash_area_erase _ _ _) w1) as [sr w2]; cbn.
    destruct (Z.eqb_spec sr 0) as [->|Hsr]; cbn.
    + repeat split.
    + rewrite (proj2 (Z.eqb_neq _ _) Hsr); cbn. repeat split.
  - rewrite (proj2 (Z.eqb_neq _ _) Hso); cbn. repeat split.
Qed.

(** X4: the read primitive calls [flash_area_open], [flash_area_read] and
    [flash_area_close], in this order and stopping at the first failure, and
    nothing else.  It reads through the handle the open delivered, asks for
    [size] bytes, closes that same handle when the read succeeded, and in the
    memory structure replaces the handle only. *)
Theorem delta_mem_read_frame {W : Type} (h : handler W) (w : W)
    (m : delta_memory_struct_t) (buf : list byte) (size : Z) :
  let tr := trace h (delta_mem_read m buf size) w in
  let m' := fst (fst (result h (delta_mem_read m buf size) w)) in
  let o := fst (h (flash_area_open (slot (flash m)) (flash_area (flash m))) w) in
  (exists rest,
     map fn_of tr ++ rest =
     [fn_flash_area_open; fn_flash_area_read; fn_flash_area_close]) /\
  collect read_through tr = (if open_failed tr then [] else [snd o]) /\
  map (fun x => snd (fst x)) (collect read_at tr) =
  (if open_failed tr then [] else [size]) /\
  collect closed tr =
  (if open_failed tr || read_failed tr then [] else [snd o]) /\
  m' = set_flash_area m (snd o).
Proof.
  unfold trace, result. rewrite run_delta_mem_read. cbv zeta.
  unfold open_failed, read_failed.
  destruct (h (flash_area_open _ _) w) as [[so fa] w1]; cbn.
  destruct (Z.eqb_spec so 0) as [->|Hso]; cbn.
  - destruct (h (flash_area_read _ _ _ _) w1) as [[sr data] w2]; cbn.
    destruct (Z.eqb_spec sr 0) as [->|Hsr]; cbn.
    + split; [eexists; reflexivity | repeat split].
    + rewrite (proj2 (Z.eqb_neq _ _) Hsr); cbn.
      split; [eexists; reflexivity | repeat split].
  - rewrite (proj2 (Z.eqb_neq _ _) Hso); cbn.
    split; [eexists; reflexivity | repeat split].
Qed.

(** X5: when the region cannot be opened, the read primitive returns
    [-ENODEV], hands the buffer back as it received it, and neither reads
    nor closes. *)
Theorem delta_mem_read_open_failure {W : Type} (h : handler W) (w : W)
    (m : delta_memory_struct_t) (buf : list byte) (size : Z) :
  let tr := trace h (delta_mem_read m buf size) w in
  let out := result h (delta_mem_read m buf size) w in
  open_failed tr = true ->
  snd out = - ENODEV /\
  snd (fst out) = buf /\
  collect read_at tr = [] /\
  collect closed tr = [].
Proof.
  unfold trace, result. rewrite run_delta_mem_read. cbv zeta.
  unfold open_failed.
  destruct (h (flash_area_open _ _) w) as [[so fa] w1]; cbn.
  destruct (Z.eqb_spec so 0) as [->|Hso]; cbn.
  - destruct (h (flash_area_read _ _ _ _) w1) as [[sr data] w2]; cbn.
    destruct (negb (sr =? 0)); cbn; discriminate.
  - intros _. repeat split.
Qed.

(** X6: reading does not move the position.  A second read, made on the
    structure the first one returned and in the environment it left, asks
    the flash for the same offset as the first: the source cursor when the
    selector is [SLOT_0], the patch cursor otherwise, converted to [off_t]. *)
Theorem delta_mem_read_twice_same_offset {W : Type} (h : handler W) (w : W)
    (m : delta_memory_struct_t) (buf : list byte) (size size' : Z) :
  let first := run h (delta_mem_read m buf size) w in
  let m1 := fst (fst (fst (fst first))) in
  let buf1 := snd (fst (fst (fst first))) in
  let w1 := snd (fst first) in
  let tr1 := snd first in
  let tr2 := trace h (delta_mem_read m1 buf1 size') w1 in
  let off :=
    to_off_t OFF_T_BITS
      (if slot (flash m) =? SLOT_0
       then source (offset m) else patch (offset m)) in
  map (fun x => fst (fst x)) (collect read_at tr1) =
  (if open_failed tr1 then [] else [off]) /\
  map (fun x => fst (fst x)) (collect read_at tr2) =
  (if open_failed tr2 then [] else [off]).
Proof.
  cbv zeta.
  split; [apply read_offset_of_cursor|].
  rewrite read_offset_of_cursor.
  replace (slot (flash (fst (fst (fst (fst
             (run h (delta_mem_read m buf size) w)))))))
    with (slot (flash m)).
  replace (offset (fst (fst (fst (fst
             (run h (delta_mem_read m buf size) w))))))
    with (offset m).
  reflexivity.
  all: rewrite run_delta_mem_read; cbv zeta;
    destruct (negb _); [| destruct (negb _)]; reflexivity.
Qed.

(** X7: seek positions are absolute.  A seek after a seek leaves the
    structure the second seek alone would leave, and a seek changes nothing
    in what a following write or erase asks of the environment. *)
Theorem delta_mem_seek_overrides {W : Type} (h : handler W) (w : W)
    (m : delta_memory_struct_t) (s1 p1 s2 p2 : Z)
    (buf : list byte) (size : Z) (flush : bool) (off : Z) :
  let m1 := fst (result h (delta_mem_seek m s1 p1) w) in
  result h (delta_mem_seek m1 s2 p2) w = result h (delta_mem_seek m s2 p2) w /\
  trace h (delta_mem_write m1 buf size flush) w =
  trace h (delta_mem_write m buf size flush) w /\
  trace h (delta_mem_erase m1 off size) w =
  trace h (delta_mem_erase m off size) w.
Proof.
  intros m1.
  assert (Hm1 : m1 = set_offset m (to_uint64 s1) (to_uint64 p1))
    by reflexivity.
  clearbody m1. subst m1.
  split; [| split].
  - reflexivity.
  - unfold trace, delta_mem_write; cbn.
    ask h. unpair. destruct (negb _); reflexivity.
  - unfold trace. rewrite !run_delta_mem_erase. cbv zeta.
    cbn [set_offset flash].
    destruct (negb _); [| destruct (negb _)]; reflexivity.
Qed.

(** * Further properties of the apply sequence *)

(** X8: [delta_apply_algo] calls the backend's patch once and hands it the
    API structure it was given.  When the patch fails its status is returned
    as it is and no upgrade is requested; when it succeeds the upgrade is
    requested once, as permanent, and the status of that request is returned
    as it is.  The structure is what the backend left of it:
    [delta_apply_algo] itself changes nothing in it. *)
Theorem delta_apply_algo_status {W : Type} (h : handler W) (w : W)
    (api : delta_api_t) :
  let tr := trace h (delta_apply_algo api) w in
  let api' := fst (result h (delta_apply_algo api) w) in
  let ret := snd (result h (delta_apply_algo api) w) in
  let p := fst (h (backend_patch api) w) in
  collect patched_api tr = [api] /\
  collect patched tr = [fst p] /\
  (if fst p =? 0
   then collect upgrade_requested tr = [(BOOT_UPGRADE_PERMANENT, ret)]
   else collect upgrade_requested tr = [] /\ ret = fst p) /\
  api' = snd p.
Proof.
  unfold trace, result, delta_apply_algo; cbn.
  ask h. destruct r as [sp self]. cbn.
  destruct (Z.eqb_spec sp 0) as [->|Hsp]; cbn.
  - ask h. destruct (negb (r =? 0)); cbn; repeat split.
  - rewrite ?(proj2 (Z.eqb_neq _ _) Hsp); cbn. repeat split.
Qed.



(** X11: when the writer initialisation or the registration returns a
    nonzero status, [main] returns that status, the backend's patch is not
    called, no upgrade is requested and no reboot is requested. *)
Theorem main_init_failure {W : Type} (h : handler W) (w : W)
    (api : delta_api_t) (r : Z) :
  let tr := process_trace h (main api) w in
  r <> 0 ->
  In r (collect writer_initialised tr ++ collect registered tr) ->
  collect patched tr = [] /\
  collect upgrade_requested tr = [] /\
  collect rebooted tr = [] /\
  process_result h (main api) w = Some r.
Proof.
  unfold process_trace, process_result, main, delta_apply_init,
    delta_apply_patch_init, delta_apply_algo, call_seek; cbn.
  exits h; intros Hr Hin;
    repeat match goal with
           | H : _ \/ _ |- _ => destruct H
           | H : False |- _ => destruct H
           end;
    try congruence; subst; repeat split.
Qed.

(** X12: the backend's patch is started on reset cursors.  In every run of
    [main], the memory structure handed to the backend has both cursors at
    zero, and the selector and the handle of the initial structure. *)
Theorem main_patch_sees_reset_cursors {W : Type} (h : handler W) (w : W)
    (api : delta_api_t) :
  Forall (fun mem => source (offset mem) = 0 /\
                     patch (offset mem) = 0 /\
                     slot (flash mem) = slot (flash (memory api)) /\
                     flash_area (flash mem) = flash_area (flash (memory api)))
         (collect patched_with (process_trace h (main api) w)).
Proof.
  unfold process_trace, main, delta_apply_init, delta_apply_patch_init,
    delta_apply_algo, call_seek; cbn.
  exits h; try congruence; repeat constructor.
Qed.

(** X15: [main] hands the first error through unchanged.  A nonzero status
    returned by the writer initialisation, the registration, the backend's
    patch or the upgrade request is the value [main] returns. *)
Theorem main_returns_first_error {W : Type} (h : handler W) (w : W)
    (api : delta_api_t) (r : Z) :
  let tr := process_trace h (main api) w in
  r <> 0 ->
  In r (collect writer_initialised tr ++ collect registered tr ++
        collect patched tr ++ map snd (collect upgrade_requested tr)) ->
  process_result h (main api) w = Some r.
Proof.
  unfold process_trace, process_result, main, delta_apply_init,
    delta_apply_patch_init, delta_apply_algo, call_seek; cbn.
  exits h; intros Hr Hin;
    repeat match goal with
           | H : _ \/ _ |- _ => destruct H
           | H : False |- _ => destruct H
           end;
    congruence.
Qed.

End Properties.

(** * The properties on the test benches *)

(** C1: the region opens and the flash operation then reports [-EIO].  The
    read primitive and the erase primitive both return [-EINVAL] with one
    successful open and no close in their trace: the handle stays open. *)
Theorem delta_mem_read_erase_leave_region_open :
  let m := bench_memory 1 0 0 in
  let tr_read := trace (scripted read_fault) (delta_mem_read 0 32 m [] 16) tt in
  let tr_erase := trace (scripted erase_fault) (delta_mem_erase 32 m 0 4096) tt in
  (open_count tr_read = 1%nat /\
   close_count tr_read = 0%nat /\
   snd (result (scripted read_fault) (delta_mem_read 0 32 m [] 16) tt)
   = - EINVAL) /\
  (open_count tr_erase = 1%nat /\
   close_count tr_erase = 0%nat /\
   snd (result (scripted erase_fault) (delta_mem_erase 32 m 0 4096) tt)
   = - EINVAL).
Proof. vm_compute. repeat split. Qed.

(** On the paths without a fault the counts agree. *)
Example delta_mem_read_erase_balanced_without_fault :
  let m := bench_memory 1 0 0 in
  let tr_read := trace (scripted all_ok) (delta_mem_read 0 32 m [] 16) tt in
  let tr_erase := trace (scripted all_ok) (delta_mem_erase 32 m 0 4096) tt in
  open_count tr_read = close_count tr_read /\
  open_count tr_erase = close_count tr_erase.
Proof. vm_compute. split; reflexivity. Qed.

(** C2, as the claim states it, fails.  With partition 0 holding the running
    firmware, a read on the source followed by an erase makes the erase open
    partition 0 as well; and no identifier is the one that every erase
    opens. *)
Lemma delta_mem_erase_not_destination_only :
  (let m := bench_memory 0 0 0 in
   let m1 :=
     fst (fst (result (scripted all_ok) (delta_mem_read 0 32 m [] 16) tt)) in
   map fst (collect opened
              (trace (scripted all_ok) (delta_mem_erase 32 m1 0 4096) tt))
   = [0]) /\
  ~ (exists DESTINATION : Z,
       @erase_opens_only Z unit 32 DESTINATION).
Proof.
  split; [vm_compute; reflexivity|].
  intros [dest Hdest].
  pose proof (Hdest unit (scripted all_ok) tt (bench_memory 0 0 0) 0 4096
                (0, 0) (or_introl eq_refl)) as H0.
  pose proof (Hdest unit (scripted all_ok) tt (bench_memory 1 0 0) 0 4096
                (1, 0) (or_introl eq_refl)) as H1.
  cbn in H0, H1. congruence.
Qed.

(** A run where every call succeeds: the patch returns zero. *)
Lemma main_requests_upgrade_once_witness :
  In 0 (collect patched (process_trace (scripted all_ok) (main false bench_api) tt))
  /\
  (collect patched (process_trace (scripted all_ok) (main false bench_api) tt)
   = [0] /\
   exists r,
     collect upgrade_requested
       (process_trace (scripted all_ok) (main false bench_api) tt)
     = [(BOOT_UPGRADE_PERMANENT, r)] /\
     (r = 0 ->
      collect rebooted (process_trace (scripted all_ok) (main false bench_api) tt)
      = [SYS_REBOOT_COLD]) /\
     (r <> 0 ->
      collect rebooted (process_trace (scripted all_ok) (main false bench_api) tt)
      = [])).
Proof.
  split; [vm_compute; auto|].
  apply (main_requests_upgrade_once false (scripted all_ok) tt bench_api).
  vm_compute; auto.
Defined.

(** A run where the backend's patch returns [-EIO]. *)
Lemma main_patch_failure_witness :
  (- EIO <> 0 /\
   In (- EIO)
      (collect patched
         (process_trace (scripted patch_fault) (main true bench_api) tt))) /\
  (collect upgrade_requested
     (process_trace (scripted patch_fault) (main true bench_api) tt) = [] /\
   collect rebooted
     (process_trace (scripted patch_fault) (main true bench_api) tt) = [] /\
   process_result (scripted patch_fault) (main true bench_api) tt = Some (- EIO)).
Proof.
  split.
  - split; [vm_compute; discriminate | vm_compute; auto].
  - apply (main_patch_failure true (scripted patch_fault) tt bench_api
             (- EIO)).
    + vm_compute; discriminate.
    + vm_compute; auto.
Defined.

(** [seek(16, 32)] on cursors standing at 5 and 9. *)
Lemma delta_mem_seek_sets_both_witness :
  (size_t_range 16 /\ size_t_range 32) /\
  run (scripted all_ok) (delta_mem_seek (bench_memory 0 5 9) 16 32) tt
  = ((bench_memory 0 16 32, 0), tt, []).
Proof.
  split.
  - unfold size_t_range; split; lia.
  - apply (delta_mem_seek_sets_both (scripted all_ok) tt
             (bench_memory 0 5 9) 16 32);
      unfold size_t_range; lia.
Defined.

(** C5, as the claim states it, fails.  With a 64-bit [off_t], after
    [seek(2^63, 0)] a read on the source asks the flash for offset [-2^63];
    with a 32-bit [off_t], after [seek(0, 2^31)] a read on the patch
    partition asks for offset [-2^31]. *)
Lemma delta_mem_seek_then_read_wraps :
  (size_t_range (2 ^ 63) /\
   let m' := fst (result (scripted all_ok)
                         (delta_mem_seek (bench_memory 0 0 0) (2 ^ 63) 0)
                         tt) in
   let tr := trace (scripted all_ok) (delta_mem_read 0 64 m' [] 8) tt in
   open_failed tr = false /\
   map (fun x => fst (fst x)) (collect read_at tr) = [- 2 ^ 63] /\
   map (fun x => fst (fst x)) (collect read_at tr) <> [2 ^ 63]) /\
  (size_t_range (2 ^ 31) /\
   let m' := fst (result (scripted all_ok)
                         (delta_mem_seek (bench_memory 2 0 0) 0 (2 ^ 31))
                         tt) in
   let tr := trace (scripted all_ok) (delta_mem_read 0 32 m' [] 8) tt in
   open_failed tr = false /\
   map (fun x => fst (fst x)) (collect read_at tr) = [- 2 ^ 31] /\
   map (fun x => fst (fst x)) (collect read_at tr) <> [2 ^ 31]).
Proof.
  split; (split; [unfold size_t_range; lia|]);
    vm_compute; repeat split; discriminate.
Qed.

(** [seek(16, 32)], then a read with the selector on partition 0 (the
    source) and a read with the selector on partition 2, with a 32-bit
    [off_t]. *)
Lemma delta_mem_seek_then_read_witness :
  (size_t_range 16 /\ size_t_range 32 /\
   slot (flash (bench_memory 0 5 9)) = 0 /\ off_t_range 32 16 /\
   slot (flash (bench_memory 2 5 9)) <> 0 /\ off_t_range 32 32) /\
  (let m' := fst (result (scripted all_ok)
                         (delta_mem_seek (bench_memory 0 5 9) 16 32) tt) in
   let tr := trace (scripted all_ok) (delta_mem_read 0 32 m' [] 8) tt in
   map (fun x => fst (fst x)) (collect read_at tr) =
   if open_failed tr then [] else [16]) /\
  (let m' := fst (result (scripted all_ok)
                         (delta_mem_seek (bench_memory 2 5 9) 16 32) tt) in
   let tr := trace (scripted all_ok) (delta_mem_read 0 32 m' [] 8) tt in
   map (fun x => fst (fst x)) (collect read_at tr) =
   if open_failed tr then [] else [32]).
Proof.
  assert (H16 : size_t_range 16) by (unfold size_t_range; lia).
  assert (H32 : size_t_range 32) by (unfold size_t_range; lia).
  assert (O16 : off_t_range 32 16) by (unfold off_t_range; lia).
  assert (O32 : off_t_range 32 32) by (unfold off_t_range; lia).
  split; [| split].
  - repeat match goal with |- _ /\ _ => split end;
      try assumption; [reflexivity | cbn; discriminate].
  - apply (proj1 (delta_mem_seek_then_read 0 32 (scripted all_ok) tt
                    (bench_memory 0 5 9) 16 32 [] 8 H16 H32));
      [reflexivity | exact O16].
  - apply (proj2 (delta_mem_seek_then_read 0 32 (scripted all_ok) tt
                    (bench_memory 2 5 9) 16 32 [] 8 H16 H32));
      [cbn; discriminate | exact O32].
Defined.

(** The region does not open. *)
Lemma delta_mem_read_open_failure_witness :
  open_failed (trace (scripted open_fault)
                     (delta_mem_read 0 32 (bench_memory 0 5 9) [x2a%byte] 1) tt)
  = true /\
  (snd (result (scripted open_fault)
               (delta_mem_read 0 32 (bench_memory 0 5 9) [x2a%byte] 1) tt)
   = - ENODEV /\
   snd (fst (result (scripted open_fault)
                    (delta_mem_read 0 32 (bench_memory 0 5 9) [x2a%byte] 1) tt))
   = [x2a%byte] /\
   collect read_at
     (trace (scripted open_fault)
            (delta_mem_read 0 32 (bench_memory 0 5 9) [x2a%byte] 1) tt) = [] /\
   collect closed
     (trace (scripted open_fault)
            (delta_mem_read 0 32 (bench_memory 0 5 9) [x2a%byte] 1) tt) = []).
Proof.
  split; [vm_compute; reflexivity|].
  apply (delta_mem_read_open_failure 0 32 (scripted open_fault) tt
           (bench_memory 0 5 9) [x2a%byte] 1).
  vm_compute; reflexivity.
Defined.

(** The registration is rejected, in a debug build. *)
Lemma main_init_failure_witness :
  (- EIO <> 0 /\
   In (- EIO)
      (collect writer_initialised
         (process_trace (scripted register_fault) (main true bench_api) tt)
       ++ collect registered
            (process_trace (scripted register_fault) (main true bench_api) tt))) /\
  (collect patched
     (process_trace (scripted register_fault) (main true bench_api) tt) = [] /\
   collect upgrade_requested
     (process_trace (scripted register_fault) (main true bench_api) tt) = [] /\
   collect rebooted
     (process_trace (scripted register_fault) (main true bench_api) tt) = [] /\
   process_result (scripted register_fault) (main true bench_api) tt = Some (- EIO)).
Proof.
  split.
  - split; [vm_compute; discriminate | vm_compute; auto].
  - apply (main_init_failure true (scripted register_fault) tt bench_api
             (- EIO)).
    + vm_compute; discriminate.
    + vm_compute; auto.
Defined.

(** The bootloader rejects the upgrade request. *)
Lemma main_returns_first_error_witness :
  (- EIO <> 0 /\
   In (- EIO)
      (collect writer_initialised
         (process_trace (scripted upgrade_fault) (main false bench_api) tt)
       ++ collect registered
            (process_trace (scripted upgrade_fault) (main false bench_api) tt)
       ++ collect patched
            (process_trace (scripted upgrade_fault) (main false bench_api) tt)
       ++ map snd
            (collect upgrade_requested
               (process_trace (scripted upgrade_fault) (main false bench_api) tt))))
  /\
  process_result (scripted upgrade_fault) (main false bench_api) tt = Some (- EIO).
Proof.
  split.
  - split; [vm_compute; discriminate | vm_compute; auto 6].
  - apply (main_returns_first_error false (scripted upgrade_fault) tt
             bench_api (- EIO)).
    + vm_compute; discriminate.
    + vm_compute; auto 6.
Defined.
